(** * intellifire4py: the unified fireplace facade

  A shallow embedding of [src/intellifire4py/unified_fireplace.py].

  The class [UnifiedFireplace] owns one local and one cloud backend and
  two mode selections.  Its methods mutate [self], call the backends
  (which are external collaborators and may raise), and write to a
  logger.  They are embedded as computations in a small monad that
  threads the facade through, collects the effects performed (backend
  calls with their outcome, log records, attribute writes) in a trace,
  and returns a value or a raised exception.  As in Python, whatever was
  mutated before an exception is raised stays mutated. *)

From Stdlib Require Import List String Bool.
Import ListNotations.
Open Scope string_scope.
Open Scope list_scope.

(** ** Modes, exceptions *)

(** [intellifire4py.const.IntelliFireApiMode]; the two members the facade
  distinguishes. *)
Inductive IntelliFireApiMode : Type := LOCAL | CLOUD.

Definition mode_eqb (a b : IntelliFireApiMode) : bool :=
  match a, b with
  | LOCAL, LOCAL | CLOUD, CLOUD => true
  | _, _ => false
  end.

(** The [.name] of an enum member, as the log messages print it. *)
Definition name (m : IntelliFireApiMode) : string :=
  match m with LOCAL => "LOCAL" | CLOUD => "CLOUD" end.

(** A raised Python exception.  [except Exception] catches the instances of
  [Exception]; what derives from [BaseException] only (task cancellation,
  interpreter exit) passes through such a handler. *)
Inductive PyExn : Type :=
| Exception (msg : string)
| BaseException (msg : string).

Definition isinstance_Exception (e : PyExn) : bool :=
  match e with Exception _ => true | BaseException _ => false end.

Definition str (e : PyExn) : string :=
  match e with Exception m | BaseException m => m end.

Inductive Result (A : Type) : Type :=
| Ok (a : A)
| Raise (e : PyExn).
Arguments Ok {A} a.
Arguments Raise {A} e.

Definition is_ok {A} (r : Result A) : bool :=
  match r with Ok _ => true | Raise _ => false end.

(** ** The common fireplace record *)

(** [intellifire4py.model.IntelliFireCommonFireplaceData], by the keyword
  arguments [build_fireplace_direct] constructs it with. *)
Module IntelliFireCommonFireplaceData.
Record t : Type := mk {
  ip_address : string;
  api_key : string;
  serial : string;
  auth_cookie : string;
  user_id : string;
  web_client_id : string;
  read_mode : IntelliFireApiMode;
  control_mode : IntelliFireApiMode
}.

(** [fd.read_mode = m] *)
Definition set_read_mode (m : IntelliFireApiMode) (fd : t) : t :=
  mk (ip_address fd) (api_key fd) (serial fd) (auth_cookie fd)
     (user_id fd) (web_client_id fd) m (control_mode fd).

(** [fd.control_mode = m] *)
Definition set_control_mode (m : IntelliFireApiMode) (fd : t) : t :=
  mk (ip_address fd) (api_key fd) (serial fd) (auth_cookie fd)
     (user_id fd) (web_client_id fd) (read_mode fd) m.

(** Two records agree on the six identity fields. *)
Definition same_identity (a b : t) : Prop :=
  ip_address a = ip_address b /\ api_key a = api_key b /\
  serial a = serial b /\ auth_cookie a = auth_cookie b /\
  user_id a = user_id b /\ web_client_id a = web_client_id b.
End IntelliFireCommonFireplaceData.
Abbreviation CommonData := IntelliFireCommonFireplaceData.t.

(** [intellifire4py.model.IntelliFireUserData]: the part the batch builder
  reads. *)
Module IntelliFireUserData.
Record t : Type := mk { fireplaces : list CommonData }.
End IntelliFireUserData.

(** ** The backend contract *)

(** What the facade uses of [IntelliFireAPILocal] and [IntelliFireAPICloud]:
  the [data] attribute and three methods.  The backends are not part of
  this file's source; a backend is any state type with these operations.
  A method returns the backend's next state and [Some e] when it raises
  [e], [None] when it returns. *)
Module Api.
Class DataProvider (PollData B : Type) : Type := {
  data : B -> PollData;
  stop_background_polling : B -> B * option PyExn;
  overwrite_data : B -> PollData -> B * option PyExn;
  start_background_polling : B -> B * option PyExn
}.
End Api.

(** The constructors of the two backend classes and the [cookies] property
    of the common record (in [intellifire4py.model]) are not part of this
    file's source either; the builders take them from the environment. *)
Class Constructors (Cookies LocalApi CloudApi : Type) : Type := {
  (* IntelliFireAPILocal(fireplace_ip=..., user_id=..., api_key=...) *)
  IntelliFireAPILocal : string -> string -> string -> LocalApi;
  (* IntelliFireAPICloud(serial=..., cookies=...) *)
  IntelliFireAPICloud : string -> Cookies -> CloudApi;
  cookies : IntelliFireCommonFireplaceData.t -> Cookies
}.

(** ** Effects *)

Inductive ApiRef : Type := local_api | cloud_api.

Definition ApiRef_eqb (a b : ApiRef) : bool :=
  match a, b with
  | local_api, local_api | cloud_api, cloud_api => true
  | _, _ => false
  end.

(** The backend designated by a mode. *)
Definition api_of_mode (m : IntelliFireApiMode) : ApiRef :=
  match m with LOCAL => local_api | CLOUD => cloud_api end.

Inductive LogLevel : Type := DEBUG | INFO | ERROR.

Inductive Attr : Type :=
| attr_read_mode                    (* self._read_mode *)
| attr_control_mode                 (* self._control_mode *)
| attr_fireplace_data_read_mode     (* self._fireplace_data.read_mode *)
| attr_fireplace_data_control_mode. (* self._fireplace_data.control_mode *)

Section Facade.

Context {PollData Cookies LocalApi CloudApi : Type}.
Context {local_provider : Api.DataProvider PollData LocalApi}.
Context {cloud_provider : Api.DataProvider PollData CloudApi}.
Context {constructors : Constructors Cookies LocalApi CloudApi}.

Inductive BackendCall : Type :=
| StopBackgroundPolling
| OverwriteData (d : PollData)
| StartBackgroundPolling.

Inductive Event : Type :=
| Call (api : ApiRef) (c : BackendCall) (raised : option PyExn)
| Log (lvl : LogLevel) (msg : string)
| SetAttr (a : Attr) (m : IntelliFireApiMode).

Definition is_call (ev : Event) : bool :=
  match ev with Call _ _ _ => true | _ => false end.

(** The backend calls of a trace, in order. *)
Definition backend_calls (t : list Event) : list Event := filter is_call t.

Definition is_start_on (api : ApiRef) (ev : Event) : bool :=
  match ev with
  | Call a StartBackgroundPolling _ => ApiRef_eqb a api
  | _ => false
  end.

(** How often [start_background_polling] was called on a backend. *)
Definition start_count (api : ApiRef) (t : list Event) : nat :=
  List.length (filter (is_start_on api) t).

Definition call_raised (ev : Event) : bool :=
  match ev with Call _ _ (Some _) => true | _ => false end.

(** Some backend call of the trace raised. *)
Definition some_call_raised (t : list Event) : bool := existsb call_raised t.

(** ** The facade *)

Record UnifiedFireplace : Type := mkUnifiedFireplace {
  _control_mode : IntelliFireApiMode;
  _read_mode : IntelliFireApiMode;
  _fireplace_data : CommonData;
  _local_api : LocalApi;
  _cloud_api : CloudApi
}.

(** ** The monad of methods on [self] *)

Record Outcome (A : Type) : Type := mkOutcome {
  final : UnifiedFireplace;
  trace : list Event;
  result : Result A
}.
Arguments mkOutcome {A} _ _ _.
Arguments final {A} _.
Arguments trace {A} _.
Arguments result {A} _.

Definition M (A : Type) : Type := UnifiedFireplace -> Outcome A.

Definition ret {A} (a : A) : M A := fun self => mkOutcome self [] (Ok a).

Definition bind {A B} (m : M A) (k : A -> M B) : M B :=
  fun self =>
    match m self with
    | mkOutcome self1 t1 (Ok a) =>
        match k a self1 with
        | mkOutcome self2 t2 r => mkOutcome self2 (t1 ++ t2) r
        end
    | mkOutcome self1 t1 (Raise e) => mkOutcome self1 t1 (Raise e)
    end.

(** [try: body  except Exception as e: handler e] *)
Definition try_except_Exception {A} (body : M A) (handler : PyExn -> M A) : M A :=
  fun self =>
    match body self with
    | mkOutcome self1 t1 (Ok a) => mkOutcome self1 t1 (Ok a)
    | mkOutcome self1 t1 (Raise e) =>
        if isinstance_Exception e then
          match handler e self1 with
          | mkOutcome self2 t2 r => mkOutcome self2 (t1 ++ t2) r
          end
        else mkOutcome self1 t1 (Raise e)
    end.

Definition get_self : M UnifiedFireplace :=
  fun self => mkOutcome self [] (Ok self).

(** [self.log.<lvl>(msg)] *)
Definition log (lvl : LogLevel) (msg : string) : M unit :=
  fun self => mkOutcome self [Log lvl msg] (Ok tt).

Definition outcome_of (r : option PyExn) : Result unit :=
  match r with None => Ok tt | Some e => Raise e end.

Definition invoke {B} {P : Api.DataProvider PollData B}
    (c : BackendCall) (b : B) : B * option PyExn :=
  match c with
  | StopBackgroundPolling => Api.stop_background_polling b
  | OverwriteData d => Api.overwrite_data b d
  | StartBackgroundPolling => Api.start_background_polling b
  end.

(** A method call on [self._local_api]. *)
Definition call_local (c : BackendCall) : M unit :=
  fun self =>
    match invoke c (_local_api self) with
    | (local', raised) =>
        mkOutcome
          (mkUnifiedFireplace (_control_mode self) (_read_mode self)
             (_fireplace_data self) local' (_cloud_api self))
          [Call local_api c raised]
          (outcome_of raised)
    end.

(** A method call on [self._cloud_api]. *)
Definition call_cloud (c : BackendCall) : M unit :=
  fun self =>
    match invoke c (_cloud_api self) with
    | (cloud', raised) =>
        mkOutcome
          (mkUnifiedFireplace (_control_mode self) (_read_mode self)
             (_fireplace_data self) (_local_api self) cloud')
          [Call cloud_api c raised]
          (outcome_of raised)
    end.

(** [self._read_mode = m] *)
Definition set__read_mode (m : IntelliFireApiMode) : M unit :=
  fun self =>
    mkOutcome
      (mkUnifiedFireplace (_control_mode self) m (_fireplace_data self)
         (_local_api self) (_cloud_api self))
      [SetAttr attr_read_mode m] (Ok tt).

(** [self._control_mode = m] *)
Definition set__control_mode (m : IntelliFireApiMode) : M unit :=
  fun self =>
    mkOutcome
      (mkUnifiedFireplace m (_read_mode self) (_fireplace_data self)
         (_local_api self) (_cloud_api self))
      [SetAttr attr_control_mode m] (Ok tt).

(** [self._fireplace_data.read_mode = m] *)
Definition set__fireplace_data_read_mode (m : IntelliFireApiMode) : M unit :=
  fun self =>
    mkOutcome
      (mkUnifiedFireplace (_control_mode self) (_read_mode self)
         (IntelliFireCommonFireplaceData.set_read_mode m (_fireplace_data self))
         (_local_api self) (_cloud_api self))
      [SetAttr attr_fireplace_data_read_mode m] (Ok tt).

(** [self._fireplace_data.control_mode = m] *)
Definition set__fireplace_data_control_mode (m : IntelliFireApiMode) : M unit :=
  fun self =>
    mkOutcome
      (mkUnifiedFireplace (_control_mode self) (_read_mode self)
         (IntelliFireCommonFireplaceData.set_control_mode m (_fireplace_data self))
         (_local_api self) (_cloud_api self))
      [SetAttr attr_fireplace_data_control_mode m] (Ok tt).

Notation "x <- m ;; k" := (bind m (fun x => k))
  (at level 100, m at next level, right associativity).
Notation "m ;; k" := (bind m (fun _ => k))
  (at level 100, right associativity).

(** ** Properties of the facade *)

Definition ip_address (self : UnifiedFireplace) : string :=
  IntelliFireCommonFireplaceData.ip_address (_fireplace_data self).
Definition api_key (self : UnifiedFireplace) : string :=
  IntelliFireCommonFireplaceData.api_key (_fireplace_data self).
Definition serial (self : UnifiedFireplace) : string :=
  IntelliFireCommonFireplaceData.serial (_fireplace_data self).
Definition user_id (self : UnifiedFireplace) : string :=
  IntelliFireCommonFireplaceData.user_id (_fireplace_data self).
Definition auth_cookie (self : UnifiedFireplace) : string :=
  IntelliFireCommonFireplaceData.auth_cookie (_fireplace_data self).
Definition web_client_id (self : UnifiedFireplace) : string :=
  IntelliFireCommonFireplaceData.web_client_id (_fireplace_data self).

(** The two backends have different classes; a property that returns
    either returns a value of their sum. *)
Definition AnyApi : Type := (LocalApi + CloudApi)%type.

Definition any_data (a : AnyApi) : PollData :=
  match a with inl l => Api.data l | inr c => Api.data c end.

Definition read_api (self : UnifiedFireplace) : AnyApi :=
  if mode_eqb (_read_mode self) LOCAL
  then inl (_local_api self) else inr (_cloud_api self).

Definition control_api (self : UnifiedFireplace) : AnyApi :=
  if mode_eqb (_control_mode self) LOCAL
  then inl (_local_api self) else inr (_cloud_api self).

Definition read_mode (self : UnifiedFireplace) : IntelliFireApiMode :=
  _read_mode self.

Definition control_mode (self : UnifiedFireplace) : IntelliFireApiMode :=
  _control_mode self.

Definition _cloud_data (self : UnifiedFireplace) : PollData :=
  Api.data (_cloud_api self).

Definition _local_data (self : UnifiedFireplace) : PollData :=
  Api.data (_local_api self).

Definition data (self : UnifiedFireplace) : PollData :=
  if mode_eqb (read_mode self) LOCAL then _local_data self else _cloud_data self.

(** The backend of the facade designated by a mode. *)
Definition api_of (self : UnifiedFireplace) (m : IntelliFireApiMode) : AnyApi :=
  match m with LOCAL => inl (_local_api self) | CLOUD => inr (_cloud_api self) end.

(** ** Mode switching *)

Definition _switch_read_mode (mode : IntelliFireApiMode) : M unit :=
  (if mode_eqb mode LOCAL then
     call_cloud StopBackgroundPolling ;;
     self <- get_self ;;
     call_local (OverwriteData (Api.data (_cloud_api self))) ;;
     call_local StartBackgroundPolling
   else
     call_local StopBackgroundPolling ;;
     self <- get_self ;;
     call_cloud (OverwriteData (Api.data (_local_api self))) ;;
     call_cloud StartBackgroundPolling) ;;
  set__read_mode mode ;;
  set__fireplace_data_read_mode mode.

Definition set_read_mode (mode : IntelliFireApiMode) : M unit :=
  self <- get_self ;;
  log DEBUG ("Changing READ mode: " ++ name (_read_mode self) ++ "=>" ++ name mode)%string ;;
  if mode_eqb (_read_mode self) mode then
    log INFO "Not updating mode -- it was the same" ;;
    ret tt
  else
    try_except_Exception
      (_switch_read_mode mode)
      (fun e => log ERROR ("Error switching read mode: " ++ str e)%string).

Definition set_control_mode (mode : IntelliFireApiMode) : M unit :=
  self <- get_self ;;
  log DEBUG ("Changing CONTROL mode: " ++ name (_control_mode self) ++ "=>" ++ name mode)%string ;;
  set__control_mode mode ;;
  set__fireplace_data_control_mode mode.

(** ** Construction *)

Definition __init__ (fireplace_data : CommonData)
    (read_mode control_mode : IntelliFireApiMode) : UnifiedFireplace :=
  {| _control_mode := control_mode;
     _read_mode := read_mode;
     _fireplace_data := fireplace_data;
     _local_api :=
       IntelliFireAPILocal
         (IntelliFireCommonFireplaceData.ip_address fireplace_data)
         (IntelliFireCommonFireplaceData.user_id fireplace_data)
         (IntelliFireCommonFireplaceData.api_key fireplace_data);
     _cloud_api :=
       IntelliFireAPICloud
         (IntelliFireCommonFireplaceData.serial fireplace_data)
         (cookies fireplace_data) |}.

(** The class method builds the instance and runs the rest on it; the
    facade it returns is the instance as the activation left it.  The
    defaults [read_mode=LOCAL, control_mode=LOCAL] are written out by the
    callers that omit the arguments. *)
Definition create_async_instance (fireplace_data : CommonData)
    (read_mode control_mode : IntelliFireApiMode) : Outcome UnifiedFireplace :=
  let instance := __init__ fireplace_data read_mode control_mode in
  (_switch_read_mode (_read_mode instance) ;;
   self <- get_self ;;
   ret self) instance.

Definition build_fireplace_from_common_data (common_data : CommonData)
    : Outcome UnifiedFireplace :=
  create_async_instance common_data LOCAL LOCAL.

(** [asyncio.gather] on the results of the tasks: the list of the
    values in the order of the tasks, or an exception as soon as a task
    raises one.  Which exception of several reaches the caller depends on
    the timing of the tasks; the leftmost stands for it here. *)
Fixpoint gather {A} (tasks : list (Result A)) : Result (list A) :=
  match tasks with
  | [] => Ok []
  | Raise e :: _ => Raise e
  | Ok a :: rest =>
      match gather rest with
      | Ok l => Ok (a :: l)
      | Raise e => Raise e
      end
  end.

(** The outcome of the batch builder: what it returns or raises, and for
    every task, in the order of the input, the effects that task performs on
    the facade it builds.  The tasks run concurrently on disjoint facades,
    so only the interleaving of their traces is left open. *)
Record BatchOutcome : Type := mkBatchOutcome {
  task_traces : list (list Event);
  batch_result : Result (list UnifiedFireplace)
}.

Definition build_fireplaces_from_user_data (user_data : IntelliFireUserData.t)
    (read_mode control_mode : IntelliFireApiMode) : BatchOutcome :=
  let tasks :=
    map (fun fp => create_async_instance fp read_mode control_mode)
        (IntelliFireUserData.fireplaces user_data) in
  {| task_traces := map trace tasks;
     batch_result := gather (map result tasks) |}.

Definition build_fireplace_direct
    (ip_address api_key serial auth_cookie user_id web_client_id : string)
    (read_mode control_mode : IntelliFireApiMode) : Outcome UnifiedFireplace :=
  let common_fireplace :=
    IntelliFireCommonFireplaceData.mk ip_address api_key serial auth_cookie
      user_id web_client_id read_mode control_mode in
  create_async_instance common_fireplace LOCAL LOCAL.

Definition build_fireplace_from_common (common_fireplace : CommonData)
    : Outcome UnifiedFireplace :=
  create_async_instance common_fireplace LOCAL LOCAL.

(** ** Predicates of the statements *)

(** Both mode fields of the record repeat the modes of the facade. *)
Definition mirrored (self : UnifiedFireplace) : Prop :=
  IntelliFireCommonFireplaceData.read_mode (_fireplace_data self) = _read_mode self /\
  IntelliFireCommonFireplaceData.control_mode (_fireplace_data self) = _control_mode self.

Definition is_call_on (api : ApiRef) (ev : Event) : bool :=
  match ev with Call a _ _ => ApiRef_eqb a api | _ => false end.

Definition is_error_log (ev : Event) : bool :=
  match ev with Log ERROR _ => true | _ => false end.

(** What the handoff expects of a backend: [overwrite_data], when it
    returns, installs the snapshot it is given, and starting or stopping the
    polling task does not itself change the snapshot. *)
Definition keeps_snapshots {B} (P : Api.DataProvider PollData B) : Prop :=
  (forall b d, snd (Api.overwrite_data b d) = None ->
               Api.data (fst (Api.overwrite_data b d)) = d) /\
  (forall b, Api.data (fst (Api.stop_background_polling b)) = Api.data b) /\
  (forall b, Api.data (fst (Api.start_background_polling b)) = Api.data b).

End Facade.

Arguments mkOutcome {_ _ _ _} _ _ _.
Arguments final {_ _ _ _} _.
Arguments trace {_ _ _ _} _.
Arguments result {_ _ _ _} _.

(** ** A scripted backend

    A backend for running the facade on concrete inputs: it keeps a data
    snapshot, whether its polling task runs, and a script of what its next
    calls do ([Some e]: raise [e]; [None], or the script used up: return). *)
Module Mock.

Record Backend : Type := mk {
  snapshot : string;
  polling : bool;
  script : list (option PyExn)
}.

Definition step (effect : Backend -> Backend) (b : Backend)
    : Backend * option PyExn :=
  match script b with
  | Some e :: rest => (mk (snapshot b) (polling b) rest, Some e)
  | None :: rest => (effect (mk (snapshot b) (polling b) rest), None)
  | [] => (effect b, None)
  end.

#[global] Instance provider : Api.DataProvider string Backend := {|
  Api.data := snapshot;
  Api.stop_background_polling :=
    step (fun b => mk (snapshot b) false (script b));
  Api.overwrite_data := fun b d =>
    step (fun b => mk d (polling b) (script b)) b;
  Api.start_background_polling :=
    step (fun b => mk (snapshot b) true (script b))
|}.

(** Backends that never raise, except that the cloud backend of the device
    with serial [SN-BAD] raises on its first call. *)
#[global] Instance constructors : Constructors (list (string * string)) Backend Backend := {|
  IntelliFireAPILocal := fun fireplace_ip user_id api_key =>
    mk ("local@" ++ fireplace_ip)%string false [];
  IntelliFireAPICloud := fun serial cookies =>
    mk ("cloud@" ++ serial)%string false
       (if String.eqb serial "SN-BAD" then [Some (Exception "unreachable")] else []);
  cookies := fun fd =>
    [("user", IntelliFireCommonFireplaceData.user_id fd);
     ("auth_cookie", IntelliFireCommonFireplaceData.auth_cookie fd);
     ("web_client_id", IntelliFireCommonFireplaceData.web_client_id fd)]
|}.

Definition fireplace (serial : string) (read_mode control_mode : IntelliFireApiMode)
    : CommonData :=
  IntelliFireCommonFireplaceData.mk "10.0.0.5" "abc" serial "CK1" "U1" "W1"
    read_mode control_mode.

(** A facade at rest, reading and controlling through the given modes, whose
    backends follow the given scripts. *)
Definition facade (read_mode control_mode : IntelliFireApiMode)
    (local_script cloud_script : list (option PyExn))
    : @UnifiedFireplace Backend Backend :=
  mkUnifiedFireplace control_mode read_mode
    (fireplace "SN1" read_mode control_mode)
    (mk "local-snapshot" (mode_eqb read_mode LOCAL) local_script)
    (mk "cloud-snapshot" (mode_eqb read_mode CLOUD) cloud_script).

End Mock.

(** * Properties *)

Lemma mode_eqb_spec (a b : IntelliFireApiMode) : reflect (a = b) (mode_eqb a b).
Proof. destruct a, b; constructor; congruence. Qed.

Lemma mode_eqb_refl (a : IntelliFireApiMode) : mode_eqb a a = true.
Proof. now destruct a. Qed.

Section FacadeTheory.

Context {PollData Cookies LocalApi CloudApi : Type}.
Context {local_provider : Api.DataProvider PollData LocalApi}.
Context {cloud_provider : Api.DataProvider PollData CloudApi}.
Context {constructors : Constructors Cookies LocalApi CloudApi}.

#[local] Abbreviation Facade := (@UnifiedFireplace LocalApi CloudApi).

Ltac unfold_monad :=
  unfold bind, ret, get_self, log, try_except_Exception, call_local,
    call_cloud, set__read_mode, set__control_mode,
    set__fireplace_data_read_mode, set__fireplace_data_control_mode,
    outcome_of, invoke in *.

(** ** The outcomes of [_switch_read_mode]

    The three backend calls of a switch, each on the state the one before
    left; the first that raises ends the switch before the mode is written. *)
Lemma switch_read_mode_LOCAL (self : Facade) :
  _switch_read_mode LOCAL self =
  let stopped := Api.stop_background_polling (_cloud_api self) in
  let seeded := Api.overwrite_data (_local_api self) (Api.data (fst stopped)) in
  let started := Api.start_background_polling (fst seeded) in
  let stop_ev := Call cloud_api StopBackgroundPolling (snd stopped) in
  let seed_ev :=
    Call local_api (OverwriteData (Api.data (fst stopped))) (snd seeded) in
  let start_ev := Call local_api StartBackgroundPolling (snd started) in
  let base l c :=
    mkUnifiedFireplace (_control_mode self) (_read_mode self)
      (_fireplace_data self) l c in
  match snd stopped, snd seeded, snd started with
  | Some e, _, _ =>
      mkOutcome (base (_local_api self) (fst stopped)) [stop_ev] (Raise e)
  | None, Some e, _ =>
      mkOutcome (base (fst seeded) (fst stopped)) [stop_ev; seed_ev] (Raise e)
  | None, None, Some e =>
      mkOutcome (base (fst started) (fst stopped))
        [stop_ev; seed_ev; start_ev] (Raise e)
  | None, None, None =>
      mkOutcome
        (mkUnifiedFireplace (_control_mode self) LOCAL
           (IntelliFireCommonFireplaceData.set_read_mode LOCAL (_fireplace_data self))
           (fst started) (fst stopped))
        [stop_ev; seed_ev; start_ev;
         SetAttr attr_read_mode LOCAL;
         SetAttr attr_fireplace_data_read_mode LOCAL]
        (Ok tt)
  end.
Proof.
  unfold _switch_read_mode; unfold_monad; cbn.
  destruct (Api.stop_background_polling (_cloud_api self)) as [c1 [e1|]]; cbn;
    [reflexivity|].
  destruct (Api.overwrite_data (_local_api self) (Api.data c1)) as [l1 [e2|]]; cbn;
    [reflexivity|].
  destruct (Api.start_background_polling l1) as [l2 [e3|]]; cbn; reflexivity.
Qed.

Lemma switch_read_mode_CLOUD (self : Facade) :
  _switch_read_mode CLOUD self =
  let stopped := Api.stop_background_polling (_local_api self) in
  let seeded := Api.overwrite_data (_cloud_api self) (Api.data (fst stopped)) in
  let started := Api.start_background_polling (fst seeded) in
  let stop_ev := Call local_api StopBackgroundPolling (snd stopped) in
  let seed_ev :=
    Call cloud_api (OverwriteData (Api.data (fst stopped))) (snd seeded) in
  let start_ev := Call cloud_api StartBackgroundPolling (snd started) in
  let base l c :=
    mkUnifiedFireplace (_control_mode self) (_read_mode self)
      (_fireplace_data self) l c in
  match snd stopped, snd seeded, snd started with
  | Some e, _, _ =>
      mkOutcome (base (fst stopped) (_cloud_api self)) [stop_ev] (Raise e)
  | None, Some e, _ =>
      mkOutcome (base (fst stopped) (fst seeded)) [stop_ev; seed_ev] (Raise e)
  | None, None, Some e =>
      mkOutcome (base (fst stopped) (fst started))
        [stop_ev; seed_ev; start_ev] (Raise e)
  | None, None, None =>
      mkOutcome
        (mkUnifiedFireplace (_control_mode self) CLOUD
           (IntelliFireCommonFireplaceData.set_read_mode CLOUD (_fireplace_data self))
           (fst stopped) (fst started))
        [stop_ev; seed_ev; start_ev;
         SetAttr attr_read_mode CLOUD;
         SetAttr attr_fireplace_data_read_mode CLOUD]
        (Ok tt)
  end.
Proof.
  unfold _switch_read_mode; unfold_monad; cbn.
  destruct (Api.stop_background_polling (_local_api self)) as [l1 [e1|]]; cbn;
    [reflexivity|].
  destruct (Api.overwrite_data (_cloud_api self) (Api.data l1)) as [c1 [e2|]]; cbn;
    [reflexivity|].
  destruct (Api.start_background_polling c1) as [c2 [e3|]]; cbn; reflexivity.
Qed.

(** ** Reading the mode switch *)

(** [set_read_mode] towards another mode is the guarded switch. *)
Lemma set_read_mode_other (self : Facade) (mode : IntelliFireApiMode) :
  _read_mode self <> mode ->
  set_read_mode mode self =
  let o := _switch_read_mode mode self in
  let changing :=
    Log DEBUG ("Changing READ mode: " ++ name (_read_mode self) ++ "=>" ++ name mode)%string in
  match result o with
  | Ok _ => mkOutcome (final o) (changing :: trace o) (Ok tt)
  | Raise e =>
      if isinstance_Exception e
      then mkOutcome (final o)
             (changing :: trace o ++
              [Log ERROR ("Error switching read mode: " ++ str e)%string])
             (Ok tt)
      else mkOutcome (final o) (changing :: trace o) (Raise e)
  end.
Proof.
  intros Hneq. unfold set_read_mode, bind at 1, get_self.
  cbn -[_switch_read_mode String.append].
  unfold bind at 1, log, try_except_Exception.
  cbn -[_switch_read_mode String.append].
  destruct (mode_eqb_spec (_read_mode self) mode) as [Heq|_]; [contradiction|].
  destruct (_switch_read_mode mode self) as [f t [[]|e]];
    cbn -[String.append]; [reflexivity|].
  destruct (isinstance_Exception e); reflexivity.
Qed.


(** A switch that raises has left both read-mode fields alone, and the
    exception is the one its last backend call raised. *)
Lemma switch_read_mode_raise (self : Facade) (mode : IntelliFireApiMode) (e : PyExn) :
  result (_switch_read_mode mode self) = Raise e ->
  _read_mode (final (_switch_read_mode mode self)) = _read_mode self /\
  _control_mode (final (_switch_read_mode mode self)) = _control_mode self /\
  _fireplace_data (final (_switch_read_mode mode self)) = _fireplace_data self /\
  exists api c, In (Call api c (Some e)) (trace (_switch_read_mode mode self)).
Proof.
  destruct mode;
    [rewrite switch_read_mode_LOCAL | rewrite switch_read_mode_CLOUD]; cbn zeta;
    match goal with
    | |- context [Api.overwrite_data ?b (Api.data (fst ?s))] =>
        destruct (snd s) as [e1|] eqn:H1;
        [| destruct (snd (Api.overwrite_data b (Api.data (fst s)))) as [e2|] eqn:H2;
           [| destruct (snd (Api.start_background_polling
                               (fst (Api.overwrite_data b (Api.data (fst s))))))
                as [e3|] eqn:H3 ] ]
    end; cbn; intros He; inversion He; subst;
    repeat split; eauto 8.
Qed.

(** A switch that returns performed three backend calls, none of which
    raised, and wrote the mode to both read-mode fields. *)
Lemma switch_read_mode_ok (self : Facade) (mode : IntelliFireApiMode) (u : unit) :
  result (_switch_read_mode mode self) = Ok u ->
  let o := _switch_read_mode mode self in
  _read_mode (final o) = mode /\
  _control_mode (final o) = _control_mode self /\
  _fireplace_data (final o) =
    IntelliFireCommonFireplaceData.set_read_mode mode (_fireplace_data self) /\
  some_call_raised (trace o) = false /\
  start_count (api_of_mode mode) (trace o) = 1 /\
  (forall api, api <> api_of_mode mode -> start_count api (trace o) = 0).
Proof.
  destruct mode;
    [rewrite switch_read_mode_LOCAL | rewrite switch_read_mode_CLOUD]; cbn zeta;
    match goal with
    | |- context [Api.overwrite_data ?b (Api.data (fst ?s))] =>
        destruct (snd s) as [e1|] eqn:H1;
        [| destruct (snd (Api.overwrite_data b (Api.data (fst s)))) as [e2|] eqn:H2;
           [| destruct (snd (Api.start_background_polling
                               (fst (Api.overwrite_data b (Api.data (fst s))))))
                as [e3|] eqn:H3 ] ]
    end; cbn; intros He; try discriminate;
    repeat split; intros []; cbn; congruence.
Qed.

(** Whether a switch raises is whether one of its backend calls did. *)
Lemma switch_read_mode_raised_iff (self : Facade) (mode : IntelliFireApiMode) :
  some_call_raised (trace (_switch_read_mode mode self)) =
  negb (is_ok (result (_switch_read_mode mode self))).
Proof.
  destruct mode;
    [rewrite switch_read_mode_LOCAL | rewrite switch_read_mode_CLOUD]; cbn zeta;
    match goal with
    | |- context [Api.overwrite_data ?b (Api.data (fst ?s))] =>
        destruct (snd s) as [e1|] eqn:H1;
        [| destruct (snd (Api.overwrite_data b (Api.data (fst s)))) as [e2|] eqn:H2;
           [| destruct (snd (Api.start_background_polling
                               (fst (Api.overwrite_data b (Api.data (fst s))))))
                as [e3|] eqn:H3 ] ]
    end; cbn; reflexivity.
Qed.

(** In a switch that raises, the call that raised is the only one that did. *)
Lemma switch_read_mode_raised_unique (self : Facade) (mode : IntelliFireApiMode)
    (e e' : PyExn) (api : ApiRef) (c : BackendCall) :
  result (_switch_read_mode mode self) = Raise e ->
  In (Call api c (Some e')) (trace (_switch_read_mode mode self)) ->
  e' = e.
Proof.
  destruct mode;
    [rewrite switch_read_mode_LOCAL | rewrite switch_read_mode_CLOUD]; cbn zeta;
    match goal with
    | |- context [Api.overwrite_data ?b (Api.data (fst ?s))] =>
        destruct (snd s) as [e1|] eqn:H1;
        [| destruct (snd (Api.overwrite_data b (Api.data (fst s)))) as [e2|] eqn:H2;
           [| destruct (snd (Api.start_background_polling
                               (fst (Api.overwrite_data b (Api.data (fst s))))))
                as [e3|] eqn:H3 ] ]
    end; cbn; intros He Hin; try discriminate;
    repeat (destruct Hin as [Hin|Hin]; try congruence); contradiction.
Qed.

Lemma set_read_mode_same (self : Facade) :
  set_read_mode (_read_mode self) self =
  mkOutcome self
    [Log DEBUG ("Changing READ mode: " ++ name (_read_mode self) ++ "=>"
                ++ name (_read_mode self))%string;
     Log INFO "Not updating mode -- it was the same"]
    (Ok tt).
Proof.
  unfold set_read_mode, bind at 1, get_self.
  unfold bind at 1, log at 1.
  rewrite mode_eqb_refl. reflexivity.
Qed.


(** C5. [set_read_mode] with the mode the facade already reads from makes no
    backend call (its whole trace is the two log records), returns, and
    leaves the facade, the record and both backends as they were. *)
Theorem set_read_mode_same_mode_noop (self : Facade) :
  let o := set_read_mode (_read_mode self) self in
  final o = self /\
  backend_calls (trace o) = [] /\
  trace o =
    [Log DEBUG ("Changing READ mode: " ++ name (_read_mode self) ++ "=>"
                ++ name (_read_mode self))%string;
     Log INFO "Not updating mode -- it was the same"] /\
  result o = Ok tt.
Proof.
  cbn zeta. rewrite set_read_mode_same. repeat split.
Qed.

(** C6. [set_control_mode m] writes [m] to the facade's control mode and to
    the record's [control_mode], calls no backend, leaves every other field
    of the facade and of the record as it was, and returns; [control_api]
    then is the backend [m] designates. *)
Theorem set_control_mode_bookkeeping (self : Facade) (m : IntelliFireApiMode) :
  let o := set_control_mode (PollData := PollData) m self in
  result o = Ok tt /\
  backend_calls (trace o) = [] /\
  final o =
    {| _control_mode := m;
       _read_mode := _read_mode self;
       _fireplace_data :=
         IntelliFireCommonFireplaceData.mk
           (ip_address self) (api_key self) (serial self) (auth_cookie self)
           (user_id self) (web_client_id self)
           (IntelliFireCommonFireplaceData.read_mode (_fireplace_data self)) m;
       _local_api := _local_api self;
       _cloud_api := _cloud_api self |} /\
  control_mode (final o) = m /\
  IntelliFireCommonFireplaceData.control_mode (_fireplace_data (final o)) = m /\
  control_api (final o) = api_of self m.
Proof.
  unfold set_control_mode; unfold_monad; cbn -[String.append].
  repeat split. now destruct m.
Qed.

(** C7. On a facade reading from LOCAL, after [set_control_mode(CLOUD)] the
    control backend is the cloud backend while the read backend is still the
    local one and [data] is the local backend's snapshot.  In every state,
    [data] is the snapshot of the backend [read_api] returns. *)
Theorem control_and_read_routing_independent (self : Facade)
    (Hread : _read_mode self = LOCAL) :
  let self' := final (set_control_mode (PollData := PollData) CLOUD self) in
  (control_api self' = inr (_cloud_api self') /\
   read_api self' = inl (_local_api self') /\
   data self' = Api.data (_local_api self') /\
   _local_api self' = _local_api self /\ _cloud_api self' = _cloud_api self) /\
  (forall any : Facade, data any = any_data (read_api any)).
Proof.
  split.
  - unfold set_control_mode; unfold_monad; cbn -[String.append].
    unfold read_api, data, read_mode, _local_data; cbn. rewrite Hread. cbn.
    repeat split.
  - intros any. unfold data, read_api, read_mode, _local_data, _cloud_data.
    destruct (mode_eqb (_read_mode any) LOCAL); reflexivity.
Qed.

(** ** The builders *)

(** The primary builder is the constructor followed by one switch towards
    the requested read mode, outside any handler. *)
Lemma create_async_instance_eq (fd : CommonData) (r c : IntelliFireApiMode) :
  create_async_instance fd r c =
  let o := _switch_read_mode r (__init__ fd r c) in
  match result o with
  | Ok _ => mkOutcome (final o) (trace o) (Ok (final o))
  | Raise e => mkOutcome (final o) (trace o) (Raise e)
  end.
Proof.
  unfold create_async_instance. cbn -[_switch_read_mode].
  unfold bind at 1.
  destruct (_switch_read_mode r (__init__ fd r c)) as [f t [u|e]];
    cbn; [rewrite app_nil_r|]; reflexivity.
Qed.

(** What a construction whose backend calls all return yields. *)
Lemma create_async_instance_ok (fd : CommonData) (r c : IntelliFireApiMode) :
  some_call_raised (trace (create_async_instance fd r c)) = false ->
  let o := create_async_instance fd r c in
  result o = Ok (final o) /\
  _read_mode (final o) = r /\
  _control_mode (final o) = c /\
  _fireplace_data (final o) = IntelliFireCommonFireplaceData.set_read_mode r fd /\
  start_count (api_of_mode r) (trace o) = 1 /\
  (forall api, api <> api_of_mode r -> start_count api (trace o) = 0).
Proof.
  rewrite create_async_instance_eq. cbn zeta.
  pose proof (switch_read_mode_raised_iff (__init__ fd r c) r) as Hiff.
  destruct (result (_switch_read_mode r (__init__ fd r c))) as [u|e] eqn:Hres;
    cbn [trace final result]; intros Hno.
  - destruct (switch_read_mode_ok _ _ u Hres) as (H1 & H2 & H3 & _ & H5 & H6).
    repeat split; assumption.
  - rewrite Hno in Hiff. discriminate.
Qed.

(** A backend call that raises during the activation ends the construction
    with that exception, whatever its class. *)
Lemma create_async_instance_raise (fd : CommonData) (r c : IntelliFireApiMode) :
  some_call_raised (trace (create_async_instance fd r c)) = true ->
  exists e api call,
    result (create_async_instance fd r c) = Raise e /\
    In (Call api call (Some e)) (trace (create_async_instance fd r c)).
Proof.
  rewrite create_async_instance_eq. cbn zeta.
  pose proof (switch_read_mode_raised_iff (__init__ fd r c) r) as Hiff.
  destruct (result (_switch_read_mode r (__init__ fd r c))) as [u|e] eqn:Hres;
    cbn [trace final result]; intros Hyes.
  - rewrite Hyes in Hiff. discriminate.
  - destruct (switch_read_mode_raise _ _ e Hres) as (_ & _ & _ & api & call & Hin).
    eauto 6.
Qed.

Lemma gather_all_ok {A} (tasks : list (Result A)) :
  (forall t, In t tasks -> is_ok t = true) ->
  exists values, gather tasks = Ok values /\ tasks = map Ok values.
Proof.
  induction tasks as [|[a|e] rest IH]; intros Hall.
  - exists []. split; reflexivity.
  - destruct IH as (values & Hg & Hm); [intros; apply Hall; now right|].
    exists (a :: values). cbn. rewrite Hg, Hm at 1. split; [reflexivity|].
    now rewrite <- Hm.
  - specialize (Hall (Raise e) (or_introl eq_refl)). discriminate.
Qed.

Lemma gather_some_raise {A} (tasks : list (Result A)) (e0 : PyExn) :
  In (Raise e0) tasks ->
  exists e, gather tasks = Raise e /\ In (Raise e) tasks.
Proof.
  induction tasks as [|[a|e] rest IH]; intros Hin.
  - contradiction.
  - destruct Hin as [Heq|Hin]; [discriminate|].
    destruct (IH Hin) as (e & Hg & He). exists e. cbn. rewrite Hg.
    split; [reflexivity|now right].
  - exists e. split; [reflexivity|now left].
Qed.

(** C8. When no backend call raises during the activations, the batch
    builder returns as many facades as the user record has fireplace
    records, in their order: the i-th facade is the one the primary builder
    makes from the i-th record with the requested modes, it owns that record
    (with [read_mode] set by the activation), reads through [r] and controls
    through [c], and its activation started polling once, on the backend
    [r] designates, and on no other. *)
Theorem build_fireplaces_from_user_data_in_order
    (user_data : IntelliFireUserData.t) (r c : IntelliFireApiMode)
    (Hreturn : forall fp, In fp (IntelliFireUserData.fireplaces user_data) ->
       some_call_raised (trace (create_async_instance fp r c)) = false) :
  let out := build_fireplaces_from_user_data user_data r c in
  exists facades,
    batch_result out = Ok facades /\
    List.length facades = List.length (IntelliFireUserData.fireplaces user_data) /\
    forall i fp,
      nth_error (IntelliFireUserData.fireplaces user_data) i = Some fp ->
      exists f t,
        nth_error facades i = Some f /\
        nth_error (task_traces out) i = Some t /\
        create_async_instance fp r c = mkOutcome f t (Ok f) /\
        _fireplace_data f = IntelliFireCommonFireplaceData.set_read_mode r fp /\
        IntelliFireCommonFireplaceData.same_identity (_fireplace_data f) fp /\
        _read_mode f = r /\ _control_mode f = c /\
        start_count (api_of_mode r) t = 1 /\
        (forall api, api <> api_of_mode r -> start_count api t = 0).
Proof.
  cbn zeta. unfold build_fireplaces_from_user_data. cbn [batch_result task_traces].
  set (fps := IntelliFireUserData.fireplaces user_data) in *.
  set (tasks := map (fun fp => create_async_instance fp r c) fps).
  destruct (gather_all_ok (map result tasks)) as (facades & Hg & Hm).
  { intros t Hin. apply in_map_iff in Hin. destruct Hin as (o & <- & Hin).
    apply in_map_iff in Hin. destruct Hin as (fp & <- & Hin).
    destruct (create_async_instance_ok fp r c (Hreturn fp Hin)) as (Hres & _).
    now rewrite Hres. }
  exists facades. split; [exact Hg|]. split.
  { rewrite <- (length_map Ok facades), <- Hm. unfold tasks.
    now rewrite !length_map. }
  intros i fp Hi.
  assert (Hin : In fp fps) by (eapply nth_error_In; exact Hi).
  destruct (create_async_instance_ok fp r c (Hreturn fp Hin))
    as (Hres & Hr & Hc & Hfd & Hs1 & Hs0).
  exists (final (create_async_instance fp r c)),
         (trace (create_async_instance fp r c)).
  assert (Htask : nth_error tasks i = Some (create_async_instance fp r c))
    by (unfold tasks;
        exact (map_nth_error (fun fp => create_async_instance fp r c) i fps Hi)).
  split.
  { assert (H : nth_error (map Ok facades) i
                = Some (Ok (final (create_async_instance fp r c)))).
    { rewrite <- Hm, <- Hres. exact (map_nth_error result i tasks Htask). }
    rewrite nth_error_map in H.
    destruct (nth_error facades i) as [f|]; cbn in H; congruence. }
  split; [exact (map_nth_error trace i tasks Htask)|].
  split.
  { destruct (create_async_instance fp r c) as [f t res]. cbn in *. now subst. }
  repeat split; try assumption; rewrite Hfd; reflexivity.
Qed.

(** C9. A backend call that raises during a facade's activation ends that
    construction with that very exception, no handler intervening, whatever
    the exception's class; and when the
    construction of any one facade of the batch raises, the batch builder
    raises an exception of one of its constructions and returns no list. *)
Theorem build_fireplaces_from_user_data_all_or_nothing
    (user_data : IntelliFireUserData.t) (r c : IntelliFireApiMode)
    (fp : CommonData) (e0 : PyExn)
    (Hin : In fp (IntelliFireUserData.fireplaces user_data))
    (Hraise : result (create_async_instance fp r c) = Raise e0) :
  (exists e,
     batch_result (build_fireplaces_from_user_data user_data r c) = Raise e /\
     exists fp', In fp' (IntelliFireUserData.fireplaces user_data) /\
                 result (create_async_instance fp' r c) = Raise e) /\
  (forall facades,
     batch_result (build_fireplaces_from_user_data user_data r c) <> Ok facades) /\
  (forall fd api call e,
     In (Call api call (Some e)) (trace (create_async_instance fd r c)) ->
     result (create_async_instance fd r c) = Raise e).
Proof.
  assert (Hbatch : exists e,
     batch_result (build_fireplaces_from_user_data user_data r c) = Raise e /\
     exists fp', In fp' (IntelliFireUserData.fireplaces user_data) /\
                 result (create_async_instance fp' r c) = Raise e).
  { unfold build_fireplaces_from_user_data. cbn [batch_result].
    destruct (gather_some_raise
                (map result (map (fun fp => create_async_instance fp r c)
                               (IntelliFireUserData.fireplaces user_data))) e0)
      as (e & Hg & He).
    - rewrite <- Hraise. apply in_map.
      apply (in_map (fun fp => create_async_instance fp r c)). exact Hin.
    - exists e. split; [exact Hg|].
      apply in_map_iff in He. destruct He as (o & Ho & Hino).
      apply in_map_iff in Hino. destruct Hino as (fp' & <- & Hin').
      eauto. }
  split; [exact Hbatch|]. split.
  - destruct Hbatch as (e & -> & _). discriminate.
  - intros fd api call e. rewrite create_async_instance_eq. cbn zeta.
    destruct (result (_switch_read_mode r (__init__ fd r c))) as [u|e'] eqn:Hres;
      cbn [trace result]; intros Hcall.
    + exfalso.
      destruct (switch_read_mode_ok _ _ u Hres) as (_ & _ & _ & Hno & _).
      assert (Hyes : some_call_raised
                       (trace (_switch_read_mode r (__init__ fd r c))) = true)
        by (apply existsb_exists; eexists; split; [exact Hcall|reflexivity]).
      congruence.
    + f_equal. symmetry.
      exact (switch_read_mode_raised_unique _ _ e' e api call Hres Hcall).
Qed.

(** C10. For a user record without fireplace records the batch builder
    returns the empty list; there is no task, hence no facade built and no
    backend call made. *)
Theorem build_fireplaces_from_user_data_empty
    (user_data : IntelliFireUserData.t) (r c : IntelliFireApiMode)
    (Hempty : IntelliFireUserData.fireplaces user_data = []) :
  build_fireplaces_from_user_data user_data r c =
  {| task_traces := []; batch_result := Ok [] |}.
Proof.
  unfold build_fireplaces_from_user_data. rewrite Hempty. reflexivity.
Qed.

(** ** Where the modes of a new facade come from *)

(** The constructor keeps the requested control mode on the facade; the
    record's [control_mode] is left as the caller passed it, whether the
    activation returns or raises. *)
Lemma create_async_instance_control_mode (fd : CommonData) (r c : IntelliFireApiMode) :
  let o := create_async_instance fd r c in
  _control_mode (final o) = c /\
  IntelliFireCommonFireplaceData.control_mode (_fireplace_data (final o)) =
    IntelliFireCommonFireplaceData.control_mode fd.
Proof.
  rewrite create_async_instance_eq. cbn zeta.
  destruct (result (_switch_read_mode r (__init__ fd r c))) as [u|e] eqn:Hres;
    cbn [final].
  - destruct (switch_read_mode_ok _ _ u Hres) as (_ & Hc & Hfd & _).
    rewrite Hc, Hfd. split; reflexivity.
  - destruct (switch_read_mode_raise _ _ e Hres) as (_ & Hc & Hfd & _).
    rewrite Hc, Hfd. split; reflexivity.
Qed.

(** A facade the primary builder returns has its read mode mirrored on the
    record. *)
Lemma create_async_instance_read_mode_mirrored
    (fd : CommonData) (r c : IntelliFireApiMode) (f : Facade) :
  result (create_async_instance fd r c) = Ok f ->
  _read_mode f = r /\
  IntelliFireCommonFireplaceData.read_mode (_fireplace_data f) = r.
Proof.
  rewrite create_async_instance_eq. cbn zeta.
  destruct (result (_switch_read_mode r (__init__ fd r c))) as [u|e] eqn:Hres;
    cbn [result]; intros Hf; inversion Hf; subst f.
  destruct (switch_read_mode_ok _ _ u Hres) as (Hr & _ & Hfd & _).
  rewrite Hr, Hfd. split; reflexivity.
Qed.

(** [build_fireplace_direct] builds a facade in LOCAL/LOCAL whatever modes
    it is given; the requested control mode only reaches the record. *)
Lemma build_fireplace_direct_modes
    (ip key ser auth uid wid : string) (r c : IntelliFireApiMode) :
  let o := build_fireplace_direct ip key ser auth uid wid r c in
  _read_mode (final o) = LOCAL /\
  _control_mode (final o) = LOCAL /\
  IntelliFireCommonFireplaceData.control_mode (_fireplace_data (final o)) = c.
Proof.
  unfold build_fireplace_direct. cbn zeta.
  destruct (create_async_instance_control_mode
              (IntelliFireCommonFireplaceData.mk ip key ser auth uid wid r c)
              LOCAL LOCAL) as (Hc & Hfc).
  repeat split; [|exact Hc|exact Hfc].
  rewrite create_async_instance_eq. cbn zeta.
  match goal with
  | |- context [_switch_read_mode LOCAL ?i] =>
      destruct (result (_switch_read_mode LOCAL i)) as [u|e] eqn:Hres; cbn [final];
      [ destruct (switch_read_mode_ok _ _ u Hres) as (Hr & _); exact Hr
      | destruct (switch_read_mode_raise _ _ e Hres) as (Hr & _); exact Hr ]
  end.
Qed.

End FacadeTheory.

(** * The facade on scripted backends *)



Lemma control_and_read_routing_independent_witness :
  let self' := final (set_control_mode (PollData := string) CLOUD
                        (Mock.facade LOCAL LOCAL [] [])) in
  control_api self' = inr (Mock.mk "cloud-snapshot" false []) /\
  read_api self' = inl (Mock.mk "local-snapshot" true []) /\
  data self' = "local-snapshot".
Proof.
  destruct (control_and_read_routing_independent (PollData := string)
              (Mock.facade LOCAL LOCAL [] []) eq_refl)
    as ((Hc & Hr & Hd & _ & _) & _).
  exact (conj Hc (conj Hr Hd)).
Defined.

(** The user record of the batch examples: three devices. *)
Lemma build_fireplaces_from_user_data_in_order_witness :
  exists f1 f2 f3,
    batch_result
      (build_fireplaces_from_user_data
         (IntelliFireUserData.mk
            [Mock.fireplace "SN1" LOCAL LOCAL; Mock.fireplace "SN2" LOCAL LOCAL;
             Mock.fireplace "SN3" LOCAL LOCAL]) CLOUD LOCAL)
    = Ok [f1; f2; f3] /\
    serial f1 = "SN1" /\ serial f2 = "SN2" /\ serial f3 = "SN3".
Proof.
  destruct (build_fireplaces_from_user_data_in_order
              (IntelliFireUserData.mk
                 [Mock.fireplace "SN1" LOCAL LOCAL; Mock.fireplace "SN2" LOCAL LOCAL;
                  Mock.fireplace "SN3" LOCAL LOCAL]) CLOUD LOCAL)
    as (facades & Hres & Hlen & Hnth).
  - intros fp [<-|[<-|[<-|[]]]]; reflexivity.
  - destruct (Hnth 0 _ eq_refl) as (f1 & t1 & H1 & _ & _ & Hfd1 & _).
    destruct (Hnth 1 _ eq_refl) as (f2 & t2 & H2 & _ & _ & Hfd2 & _).
    destruct (Hnth 2 _ eq_refl) as (f3 & t3 & H3 & _ & _ & Hfd3 & _).
    destruct facades as [|g1 [|g2 [|g3 [|g4 rest]]]]; try discriminate.
    cbn in H1, H2, H3. inversion H1; inversion H2; inversion H3; subst.
    exists f1, f2, f3. unfold serial. rewrite Hfd1, Hfd2, Hfd3.
    repeat split. exact Hres.
Defined.

Lemma build_fireplaces_from_user_data_all_or_nothing_witness :
  exists e,
    batch_result
      (build_fireplaces_from_user_data
         (IntelliFireUserData.mk
            [Mock.fireplace "SN1" LOCAL LOCAL; Mock.fireplace "SN-BAD" LOCAL LOCAL;
             Mock.fireplace "SN3" LOCAL LOCAL]) LOCAL LOCAL)
    = Raise e.
Proof.
  destruct (build_fireplaces_from_user_data_all_or_nothing
              (IntelliFireUserData.mk
                 [Mock.fireplace "SN1" LOCAL LOCAL;
                  Mock.fireplace "SN-BAD" LOCAL LOCAL;
                  Mock.fireplace "SN3" LOCAL LOCAL]) LOCAL LOCAL
              (Mock.fireplace "SN-BAD" LOCAL LOCAL) (Exception "unreachable"))
    as ((e & He & _) & _).
  - right. left. reflexivity.
  - reflexivity.
  - exists e. exact He.
Defined.

Lemma build_fireplaces_from_user_data_empty_witness :
  build_fireplaces_from_user_data (IntelliFireUserData.mk []) CLOUD LOCAL =
  {| task_traces := []; batch_result := Ok [] |}.
Proof.
  apply (build_fireplaces_from_user_data_empty (IntelliFireUserData.mk []) CLOUD LOCAL).
  reflexivity.
Defined.

(** C2. The primary builder, given a record whose [control_mode] is LOCAL and
    the control mode CLOUD, returns a facade that controls through CLOUD
    while its record still says LOCAL: the constructor stores the mode on
    the facade only, and the activation mirrors the read mode alone. *)
Theorem create_async_instance_control_mode_not_mirrored :
  exists f,
    result (create_async_instance (Mock.fireplace "SN1" LOCAL LOCAL) LOCAL CLOUD)
      = Ok f /\
    control_mode f = CLOUD /\
    IntelliFireCommonFireplaceData.control_mode (_fireplace_data f) = LOCAL /\
    read_mode f = LOCAL /\
    IntelliFireCommonFireplaceData.read_mode (_fireplace_data f) = LOCAL.
Proof.
  eexists. split; [vm_compute; reflexivity|]. repeat split.
Qed.

(** C3. [build_fireplace_direct] asked for read mode CLOUD and control mode
    CLOUD returns a facade that reads and controls through LOCAL, and whose
    one activation was the switch towards LOCAL: the requested modes go
    into the record, and the primary builder is called with its defaults. *)
Theorem build_fireplace_direct_drops_requested_modes :
  let o := build_fireplace_direct "10.0.0.5" "abc" "SN1" "CK1" "U1" "W1" CLOUD CLOUD in
  exists f,
    result o = Ok f /\
    read_mode f = LOCAL /\
    control_mode f = LOCAL /\
    backend_calls (trace o) =
      [Call cloud_api StopBackgroundPolling None;
       Call local_api (OverwriteData "cloud@SN1") None;
       Call local_api StartBackgroundPolling None] /\
    IntelliFireCommonFireplaceData.read_mode (_fireplace_data f) = LOCAL /\
    IntelliFireCommonFireplaceData.control_mode (_fireplace_data f) = CLOUD.
Proof.
  cbn zeta. eexists. split; [vm_compute; reflexivity|]. repeat split.
Qed.

(** * Further properties of the facade *)

Section FacadeFurther.

Context {PollData Cookies LocalApi CloudApi : Type}.
Context {local_provider : Api.DataProvider PollData LocalApi}.
Context {cloud_provider : Api.DataProvider PollData CloudApi}.
Context {constructors : Constructors Cookies LocalApi CloudApi}.

#[local] Abbreviation Facade' := (@UnifiedFireplace LocalApi CloudApi).

(** Destructs the outcomes of the three backend calls of a switch. *)
Ltac switch_cases :=
  match goal with
  | |- context [Api.overwrite_data ?b (Api.data (fst ?s))] =>
      destruct s as [b1 [e1|]] eqn:Hstop; cbn [fst snd];
      [| destruct (Api.overwrite_data b (Api.data b1)) as [b2 [e2|]] eqn:Hseed;
         cbn [fst snd];
         [| destruct (Api.start_background_polling b2) as [b3 [e3|]] eqn:Hstart;
            cbn [fst snd] ] ]
  end.

(** The state [set_read_mode] ends in is the state the switch ends in, and
    the calls made are those of the switch. *)
Lemma set_read_mode_other_final (self : Facade') (mode : IntelliFireApiMode) :
  _read_mode self <> mode ->
  final (set_read_mode mode self) = final (_switch_read_mode mode self) /\
  backend_calls (trace (set_read_mode mode self)) =
    backend_calls (trace (_switch_read_mode mode self)) /\
  some_call_raised (trace (set_read_mode mode self)) =
    some_call_raised (trace (_switch_read_mode mode self)).
Proof.
  intros Hneq. rewrite (set_read_mode_other self mode Hneq). cbn zeta.
  destruct (_switch_read_mode mode self) as [f t [u|e]]; cbn [result final trace].
  - repeat split.
  - destruct (isinstance_Exception e); cbn [final trace]; repeat split.
    + unfold backend_calls. cbn [filter is_call]. rewrite filter_app. cbn.
      now rewrite app_nil_r.
    + unfold some_call_raised. cbn [existsb call_raised]. rewrite existsb_app.
      cbn. now rewrite orb_false_r.
Qed.

(** Where [set_read_mode] can leave the facade: the control mode as it was,
    and the two read-mode fields either both as they were or both written. *)
Lemma set_read_mode_final_cases (self : Facade') (mode : IntelliFireApiMode) :
  let f := final (set_read_mode mode self) in
  _control_mode f = _control_mode self /\
  ((_read_mode f = _read_mode self /\ _fireplace_data f = _fireplace_data self) \/
   (_read_mode f = mode /\
    _fireplace_data f =
      IntelliFireCommonFireplaceData.set_read_mode mode (_fireplace_data self))).
Proof.
  cbn zeta. destruct (mode_eqb_spec (_read_mode self) mode) as [Heq|Hneq].
  - subst mode. rewrite set_read_mode_same. cbn [final]. auto.
  - destruct (set_read_mode_other_final self mode Hneq) as (-> & _ & _).
    destruct (result (_switch_read_mode mode self)) as [u|e] eqn:Hres.
    + destruct (switch_read_mode_ok self mode u Hres) as (Hr & Hc & Hfd & _). auto.
    + destruct (switch_read_mode_raise self mode e Hres) as (Hr & Hc & Hfd & _). auto.
Qed.

Lemma set_control_mode_final (self : Facade') (mode : IntelliFireApiMode) :
  final (set_control_mode (PollData := PollData) mode self) =
  {| _control_mode := mode;
     _read_mode := _read_mode self;
     _fireplace_data :=
       IntelliFireCommonFireplaceData.set_control_mode mode (_fireplace_data self);
     _local_api := _local_api self;
     _cloud_api := _cloud_api self |}.
Proof. reflexivity. Qed.

(** X1. Whatever the backends do, [set_read_mode] leaves the six identity
    fields of the record, the facade's control mode and the record's
    [control_mode] as they were. *)
Theorem set_read_mode_frame (self : Facade') (mode : IntelliFireApiMode) :
  let f := final (set_read_mode mode self) in
  IntelliFireCommonFireplaceData.same_identity (_fireplace_data f) (_fireplace_data self) /\
  ip_address f = ip_address self /\ api_key f = api_key self /\
  serial f = serial self /\ user_id f = user_id self /\
  auth_cookie f = auth_cookie self /\ web_client_id f = web_client_id self /\
  _control_mode f = _control_mode self /\
  IntelliFireCommonFireplaceData.control_mode (_fireplace_data f) =
    IntelliFireCommonFireplaceData.control_mode (_fireplace_data self).
Proof.
  cbn zeta.
  destruct (set_read_mode_final_cases self mode) as (Hc & [(_ & Hfd)|(_ & Hfd)]);
    unfold ip_address, api_key, serial, user_id, auth_cookie, web_client_id,
      IntelliFireCommonFireplaceData.same_identity;
    rewrite Hfd, Hc; cbn; repeat split.
Qed.


(** X3. A facade whose record repeats its two modes still does so after
    [set_read_mode], whatever the backends do, and after
    [set_control_mode]. *)
Theorem mode_setters_keep_mirrored
    (self : Facade') (mode : IntelliFireApiMode) (Hmirrored : mirrored self) :
  mirrored (final (set_read_mode mode self)) /\
  mirrored (final (set_control_mode (PollData := PollData) mode self)).
Proof.
  destruct Hmirrored as (Hr & Hc). split.
  - destruct (set_read_mode_final_cases self mode)
      as (Hc' & [(Hr' & Hfd)|(Hr' & Hfd)]);
      unfold mirrored; rewrite Hc', Hr', Hfd; cbn; auto.
  - rewrite set_control_mode_final. unfold mirrored. cbn. auto.
Qed.

(** X4. After a [set_read_mode] in which no backend call raised, the facade
    reads through the requested mode, and asking for that mode again calls
    no backend and changes nothing. *)
Theorem set_read_mode_again_is_noop
    (self : Facade') (mode : IntelliFireApiMode)
    (Hreturned : some_call_raised (trace (set_read_mode mode self)) = false) :
  let self' := final (set_read_mode mode self) in
  read_mode self' = mode /\
  final (set_read_mode mode self') = self' /\
  backend_calls (trace (set_read_mode mode self')) = [] /\
  result (set_read_mode mode self') = Ok tt.
Proof.
  cbn zeta.
  assert (Hr : _read_mode (final (set_read_mode mode self)) = mode).
  { destruct (mode_eqb_spec (_read_mode self) mode) as [Heq|Hneq].
    - subst mode. now rewrite set_read_mode_same.
    - revert Hreturned.
      destruct (set_read_mode_other_final self mode Hneq) as (-> & _ & ->).
      rewrite switch_read_mode_raised_iff.
      destruct (result (_switch_read_mode mode self)) as [u|e] eqn:Hres;
        cbn [is_ok negb]; [intros _|discriminate].
      now destruct (switch_read_mode_ok self mode u Hres) as (Hr & _). }
  split; [exact Hr|].
  pose proof (set_read_mode_same (final (set_read_mode mode self))) as Hsame.
  rewrite Hr in Hsame. rewrite Hsame. cbn. repeat split.
Qed.

(** A raising call in the trace of [set_read_mode] is the call that ended
    the switch. *)
Lemma set_read_mode_raised_call (self : Facade') (mode : IntelliFireApiMode)
    (api : ApiRef) (c : BackendCall) (e : PyExn) :
  In (Call api c (Some e)) (trace (set_read_mode mode self)) ->
  _read_mode self <> mode /\ result (_switch_read_mode mode self) = Raise e.
Proof.
  destruct (mode_eqb_spec (_read_mode self) mode) as [Heq|Hneq].
  - subst mode. rewrite set_read_mode_same. intros [H|[H|[]]]; discriminate.
  - rewrite (set_read_mode_other self mode Hneq). cbn zeta. intros Hin.
    split; [exact Hneq|].
    assert (Hsw : In (Call api c (Some e)) (trace (_switch_read_mode mode self))).
    { destruct (result (_switch_read_mode mode self)) as [u|e'];
        [|destruct (isinstance_Exception e')];
        (destruct Hin as [H|H]; [discriminate|]); try exact H.
      apply in_app_or in H. destruct H as [H|[H|[]]]; [exact H|discriminate]. }
    clear Hin.
    destruct (result (_switch_read_mode mode self)) as [u|e'] eqn:Hres.
    + exfalso.
      destruct (switch_read_mode_ok self mode u Hres) as (_ & _ & _ & Hno & _).
      assert (Hyes : some_call_raised (trace (_switch_read_mode mode self)) = true)
        by (apply existsb_exists; eexists; split; [exact Hsw|reflexivity]).
      congruence.
    + f_equal. symmetry.
      exact (switch_read_mode_raised_unique self mode e' e api c Hres Hsw).
Qed.

(** X5. A switch to another mode always begins by stopping the backend in
    use; every later call goes to the backend switched to, there are at most
    two of them, and none is made when the stop raised.  The backend
    switched away from is never called again, so a failed switch does not
    restart it. *)
Theorem set_read_mode_call_discipline
    (self : Facade') (mode : IntelliFireApiMode)
    (Hother : _read_mode self <> mode) :
  exists stop_outcome rest,
    backend_calls (trace (set_read_mode mode self)) =
      Call (api_of_mode (_read_mode self)) StopBackgroundPolling stop_outcome :: rest /\
    forallb (is_call_on (api_of_mode mode)) rest = true /\
    (stop_outcome <> None -> rest = []) /\
    List.length rest <= 2.
Proof.
  destruct (set_read_mode_other_final self mode Hother) as (_ & -> & _).
  destruct mode; destruct (_read_mode self) eqn:Hr; try congruence;
    [rewrite switch_read_mode_LOCAL | rewrite switch_read_mode_CLOUD];
    cbn zeta; switch_cases; cbn;
    eexists _, _; (split; [reflexivity|]); cbn;
    repeat split; auto; intros H; exfalso; apply H; reflexivity.
Qed.

(** X6. [set_read_mode] raises exactly when a backend call raised something
    that is not an instance of [Exception]; it then raises that very
    exception. *)
Theorem set_read_mode_raises_iff_uncaught
    (self : Facade') (mode : IntelliFireApiMode) (e : PyExn) :
  result (set_read_mode mode self) = Raise e <->
  (isinstance_Exception e = false /\
   exists api c, In (Call api c (Some e)) (trace (set_read_mode mode self))).
Proof.
  split.
  - destruct (mode_eqb_spec (_read_mode self) mode) as [Heq|Hneq].
    + subst mode. rewrite set_read_mode_same. discriminate.
    + rewrite (set_read_mode_other self mode Hneq). cbn zeta.
      destruct (result (_switch_read_mode mode self)) as [u|e'] eqn:Hres;
        cbn [result]; [discriminate|].
      destruct (isinstance_Exception e') eqn:Hcls; cbn [result trace];
        [discriminate|].
      intros H. inversion H. subst e'. split; [exact Hcls|].
      destruct (switch_read_mode_raise self mode e Hres) as (_ & _ & _ & api & c & Hin).
      exists api, c. right. exact Hin.
  - intros (Hcls & api & c & Hin).
    destruct (set_read_mode_raised_call self mode api c e Hin) as (Hneq & Hres).
    rewrite (set_read_mode_other self mode Hneq). cbn zeta.
    rewrite Hres, Hcls. reflexivity.
Qed.

(** X7. With backends on which [overwrite_data] installs the snapshot given
    and starting or stopping the polling leaves the snapshot alone, [data]
    reads the same snapshot after [set_read_mode] as before it, whether the
    switch went through, failed at any of its calls, or was not needed. *)
Theorem set_read_mode_keeps_data
    (self : Facade') (mode : IntelliFireApiMode)
    (Hlocal : keeps_snapshots local_provider)
    (Hcloud : keeps_snapshots cloud_provider) :
  data (final (set_read_mode mode self)) = data self.
Proof.
  destruct Hlocal as (Hlo & Hlstop & Hlstart).
  destruct Hcloud as (Hco & Hcstop & Hcstart).
  destruct (mode_eqb_spec (_read_mode self) mode) as [Heq|Hneq].
  { subst mode. now rewrite set_read_mode_same. }
  destruct (set_read_mode_other_final self mode Hneq) as (-> & _ & _).
  destruct mode; destruct (_read_mode self) eqn:Hr; try congruence;
    [rewrite switch_read_mode_LOCAL | rewrite switch_read_mode_CLOUD]; cbn zeta.
  - pose proof (Hcstop (_cloud_api self)) as E1.
    destruct (Api.stop_background_polling (_cloud_api self)) as [b1 r1].
    cbn [fst snd] in *.
    pose proof (Hlo (_local_api self) (Api.data b1)) as E2.
    destruct (Api.overwrite_data (_local_api self) (Api.data b1)) as [b2 r2].
    cbn [fst snd] in *.
    pose proof (Hlstart b2) as E3.
    destruct (Api.start_background_polling b2) as [b3 r3].
    cbn [fst snd] in *.
    destruct r1 as [e1|]; [|destruct r2 as [e2|]; [|destruct r3 as [e3|]]];
      unfold data, read_mode, _local_data, _cloud_data;
      cbn [final _read_mode _local_api _cloud_api]; rewrite ?Hr; cbn [mode_eqb];
      try exact E1.
    rewrite E3, (E2 eq_refl). exact E1.
  - pose proof (Hlstop (_local_api self)) as E1.
    destruct (Api.stop_background_polling (_local_api self)) as [b1 r1].
    cbn [fst snd] in *.
    pose proof (Hco (_cloud_api self) (Api.data b1)) as E2.
    destruct (Api.overwrite_data (_cloud_api self) (Api.data b1)) as [b2 r2].
    cbn [fst snd] in *.
    pose proof (Hcstart b2) as E3.
    destruct (Api.start_background_polling b2) as [b3 r3].
    cbn [fst snd] in *.
    destruct r1 as [e1|]; [|destruct r2 as [e2|]; [|destruct r3 as [e3|]]];
      unfold data, read_mode, _local_data, _cloud_data;
      cbn [final _read_mode _local_api _cloud_api]; rewrite ?Hr; cbn [mode_eqb];
      try exact E1.
    rewrite E3, (E2 eq_refl). exact E1.
Qed.

(** ** The builders *)

(** What the primary builder returns when it returns. *)
Lemma create_async_instance_result_ok
    (fd : CommonData) (r c : IntelliFireApiMode) (f : Facade') :
  result (create_async_instance fd r c) = Ok f ->
  f = final (create_async_instance fd r c) /\
  _read_mode f = r /\ _control_mode f = c /\
  _fireplace_data f = IntelliFireCommonFireplaceData.set_read_mode r fd.
Proof.
  rewrite create_async_instance_eq. cbn zeta.
  destruct (result (_switch_read_mode r (__init__ fd r c))) as [u|e] eqn:Hres;
    cbn [result final]; intros H; inversion H.
  destruct (switch_read_mode_ok _ _ u Hres) as (Hr & Hc & Hfd & _).
  repeat split; assumption.
Qed.

(** X8. The activation inside the primary builder, when its calls return, is
    a switch on the two backends just constructed: it stops the backend that
    will not be read from (which was never started), overwrites the data of
    the backend to read from with that backend's initial snapshot, starts
    polling on the backend to read from, and writes the read mode; it logs
    nothing. *)
Theorem create_async_instance_activation
    (fd : CommonData) (r c : IntelliFireApiMode)
    (Hreturned : some_call_raised (trace (create_async_instance fd r c)) = false) :
  trace (create_async_instance fd r c) =
  match r with
  | LOCAL =>
      let cloud0 :=
        IntelliFireAPICloud (IntelliFireCommonFireplaceData.serial fd) (cookies fd) in
      [Call cloud_api StopBackgroundPolling None;
       Call local_api
         (OverwriteData (Api.data (fst (Api.stop_background_polling cloud0)))) None;
       Call local_api StartBackgroundPolling None;
       SetAttr attr_read_mode LOCAL;
       SetAttr attr_fireplace_data_read_mode LOCAL]
  | CLOUD =>
      let local0 :=
        IntelliFireAPILocal (IntelliFireCommonFireplaceData.ip_address fd)
          (IntelliFireCommonFireplaceData.user_id fd)
          (IntelliFireCommonFireplaceData.api_key fd) in
      [Call local_api StopBackgroundPolling None;
       Call cloud_api
         (OverwriteData (Api.data (fst (Api.stop_background_polling local0)))) None;
       Call cloud_api StartBackgroundPolling None;
       SetAttr attr_read_mode CLOUD;
       SetAttr attr_fireplace_data_read_mode CLOUD]
  end.
Proof.
  revert Hreturned. rewrite create_async_instance_eq. cbn zeta.
  destruct r;
    [rewrite switch_read_mode_LOCAL | rewrite switch_read_mode_CLOUD];
    cbn zeta; unfold __init__;
    cbn [_cloud_api _local_api _read_mode _control_mode _fireplace_data];
    switch_cases; cbn; intros Hno; try discriminate; reflexivity.
Qed.

(** X9. The accessors of a facade returned by [build_fireplace_direct] give
    back the six identity arguments it was called with. *)
Theorem build_fireplace_direct_accessors
    (ip key ser auth uid wid : string) (r c : IntelliFireApiMode) (f : Facade')
    (Hok : result (build_fireplace_direct ip key ser auth uid wid r c) = Ok f) :
  ip_address f = ip /\ api_key f = key /\ serial f = ser /\
  auth_cookie f = auth /\ user_id f = uid /\ web_client_id f = wid.
Proof.
  unfold build_fireplace_direct in Hok. cbn zeta in Hok.
  apply create_async_instance_result_ok in Hok. destruct Hok as (_ & _ & _ & Hfd).
  unfold ip_address, api_key, serial, auth_cookie, user_id, web_client_id.
  rewrite Hfd. cbn. repeat split.
Qed.

(** X10. The two builders from a common record are the same function, and
    the facade they return reads and controls through LOCAL whatever modes
    the record carried: the record's [read_mode] is overwritten with LOCAL,
    its other fields are kept. *)
Theorem build_fireplace_from_common_uses_defaults
    (fd : CommonData) (f : Facade')
    (Hok : result (build_fireplace_from_common fd) = Ok f) :
  build_fireplace_from_common_data fd = build_fireplace_from_common fd /\
  read_mode f = LOCAL /\ control_mode f = LOCAL /\
  _fireplace_data f = IntelliFireCommonFireplaceData.set_read_mode LOCAL fd /\
  IntelliFireCommonFireplaceData.control_mode (_fireplace_data f) =
    IntelliFireCommonFireplaceData.control_mode fd.
Proof.
  unfold build_fireplace_from_common in Hok.
  apply create_async_instance_result_ok in Hok.
  destruct Hok as (_ & Hr & Hc & Hfd).
  split; [reflexivity|]. unfold read_mode, control_mode.
  rewrite Hfd. repeat split; assumption.
Qed.

(** ** How the two setters compose *)

(** The sequence of two methods, when the first returns. *)
Lemma bind_returns {A B} (m : M (PollData := PollData) A) (k : A -> M B)
    (self : Facade') (a : A) :
  result (m self) = Ok a ->
  final (bind m k self) = final (k a (final (m self))) /\
  result (bind m k self) = result (k a (final (m self))) /\
  trace (bind m k self) = trace (m self) ++ trace (k a (final (m self))).
Proof.
  unfold bind. destruct (m self) as [f t [a'|e]]; cbn [result final trace];
    intros H; inversion H; subst.
  destruct (k a f) as [f' t' r']. repeat split.
Qed.

(** The sequence of two methods, when the first raises: the second is not
    run. *)
Lemma bind_raises {A B} (m : M (PollData := PollData) A) (k : A -> M B)
    (self : Facade') (e : PyExn) :
  result (m self) = Raise e ->
  bind m k self = mkOutcome (final (m self)) (trace (m self)) (Raise e).
Proof.
  unfold bind. destruct (m self) as [f t [a'|e']]; cbn [result final trace];
    intros H; inversion H; subst. reflexivity.
Qed.

(** [set_read_mode] on a facade whose control mode was just set makes the
    same backend calls with the same outcome as on the facade before, and
    ends where setting the control mode afterwards would. *)
Lemma set_read_mode_after_set_control_mode (self : Facade') (m c : IntelliFireApiMode) :
  let self2 := final (set_control_mode (PollData := PollData) c self) in
  final (set_read_mode m self2) =
    final (set_control_mode (PollData := PollData) c (final (set_read_mode m self))) /\
  result (set_read_mode m self2) = result (set_read_mode m self) /\
  backend_calls (trace (set_read_mode m self2)) =
    backend_calls (trace (set_read_mode m self)).
Proof.
  cbn zeta. rewrite !set_control_mode_final.
  destruct (mode_eqb_spec (_read_mode self) m) as [Heq|Hneq].
  - subst m.
    match goal with
    | |- final (set_read_mode _ ?s2) = _ /\ _ =>
        pose proof (set_read_mode_same s2) as H2; cbn [_read_mode] in H2; rewrite H2
    end.
    rewrite set_read_mode_same. repeat split.
  - match goal with
    | |- final (set_read_mode _ ?s2) = _ /\ _ =>
        rewrite (set_read_mode_other s2 m Hneq)
    end.
    rewrite (set_read_mode_other self m Hneq). cbn zeta.
    destruct m;
      [rewrite !switch_read_mode_LOCAL | rewrite !switch_read_mode_CLOUD];
      cbn zeta;
      cbn [_cloud_api _local_api _read_mode _control_mode _fireplace_data];
      switch_cases; cbn [result final trace];
      try match goal with
          | |- context [isinstance_Exception ?e] => destruct (isinstance_Exception e)
          end;
      cbn [result final trace]; repeat split;
      unfold backend_calls; cbn [filter is_call app]; rewrite ?filter_app;
      reflexivity.
Qed.

(** X11. When [set_read_mode] returns (it raises only what its handler does
    not catch), changing the control mode and changing the read mode do not
    interfere: run one after the other in either order, both sequences
    return, make the same backend calls, and leave the facade, its record
    and both backends in the same state. *)
Theorem mode_setters_commute (self : Facade') (m c : IntelliFireApiMode)
    (Hreturns : result (set_read_mode m self) = Ok tt) :
  let control_first :=
    bind (set_control_mode c) (fun _ => set_read_mode m) self in
  let read_first :=
    bind (set_read_mode m) (fun _ => set_control_mode c) self in
  final control_first = final read_first /\
  result control_first = Ok tt /\
  result read_first = Ok tt /\
  backend_calls (trace control_first) = backend_calls (trace read_first).
Proof.
  cbn zeta.
  destruct (bind_returns (set_control_mode c) (fun _ => set_read_mode m) self tt
              eq_refl) as (Hf1 & Hr1 & Ht1).
  destruct (bind_returns (set_read_mode m) (fun _ => set_control_mode c) self tt
              Hreturns) as (Hf2 & Hr2 & Ht2).
  destruct (set_read_mode_after_set_control_mode self m c) as (Hf & Hr & Hcalls).
  cbn zeta in Hf, Hr, Hcalls.
  rewrite Hf1, Hr1, Ht1, Hf2, Hr2, Ht2.
  unfold backend_calls in *. rewrite !filter_app.
  repeat split.
  - exact Hf.
  - rewrite Hr. exact Hreturns.
  - cbn [filter is_call app]. rewrite Hcalls.
    cbn. now rewrite app_nil_r.
Qed.

(** X12. Reads and control commands go to the same backend exactly when the
    read mode and the control mode are equal. *)
Theorem read_and_control_share_backend_iff (self : Facade') :
  read_api self = control_api self <-> read_mode self = control_mode self.
Proof.
  unfold read_api, control_api, read_mode, control_mode.
  destruct (_read_mode self), (_control_mode self); cbn;
    split; intros H; try reflexivity; discriminate.
Qed.

(** ** What the log shows *)

Lemma switch_read_mode_logs_nothing (self : Facade') (mode : IntelliFireApiMode) :
  existsb is_error_log (trace (_switch_read_mode mode self)) = false.
Proof.
  destruct mode;
    [rewrite switch_read_mode_LOCAL | rewrite switch_read_mode_CLOUD];
    cbn zeta; switch_cases; reflexivity.
Qed.

(** X14. [set_read_mode] writes an ERROR record to the log exactly when a
    backend call raised an instance of [Exception]; a switch that went
    through, a request for the mode already in use, and an exception that is
    passed on to the caller leave no ERROR record. *)
Theorem set_read_mode_logs_error_iff_caught
    (self : Facade') (mode : IntelliFireApiMode) :
  existsb is_error_log (trace (set_read_mode mode self)) = true <->
  exists api c e,
    In (Call api c (Some e)) (trace (set_read_mode mode self)) /\
    isinstance_Exception e = true.
Proof.
  split.
  - destruct (mode_eqb_spec (_read_mode self) mode) as [Heq|Hneq].
    + subst mode. rewrite set_read_mode_same. discriminate.
    + rewrite (set_read_mode_other self mode Hneq). cbn zeta.
      pose proof (switch_read_mode_logs_nothing self mode) as Hnolog.
      destruct (result (_switch_read_mode mode self)) as [u|e] eqn:Hres;
        [|destruct (isinstance_Exception e) eqn:Hcls];
        cbn [trace existsb is_error_log orb];
        try (rewrite Hnolog; discriminate).
      intros _.
      destruct (switch_read_mode_raise self mode e Hres)
        as (_ & _ & _ & api & c & Hin).
      exists api, c, e. split; [|exact Hcls].
      right. apply in_or_app. left. exact Hin.
  - intros (api & c & e & Hin & Hcls).
    destruct (set_read_mode_raised_call self mode api c e Hin) as (Hneq & Hres).
    rewrite (set_read_mode_other self mode Hneq). cbn zeta.
    rewrite Hres, Hcls. cbn [trace existsb is_error_log orb].
    rewrite existsb_app. cbn. apply orb_true_r.
Qed.

(** ** Batches *)

Lemma gather_app {A} (l1 l2 : list (Result A)) (a b : list A) :
  gather l1 = Ok a -> gather l2 = Ok b -> gather (l1 ++ l2) = Ok (a ++ b).
Proof.
  revert a. induction l1 as [|[x|e] l1 IH]; intros a H1 H2; cbn in *.
  - inversion H1. exact H2.
  - destruct (gather l1) as [a'|e'] eqn:Hg; [|discriminate].
    inversion H1. rewrite (IH a' eq_refl H2). reflexivity.
  - discriminate.
Qed.

(** X13. Batches compose: when the batch builder returns for each of two
    lists of fireplace records, it returns for their concatenation, with the
    facades of the first list followed by those of the second, and the
    effects of each construction are the same as in the separate batches. *)
Theorem build_fireplaces_from_user_data_app
    (fps1 fps2 : list CommonData) (r c : IntelliFireApiMode)
    (facades1 facades2 : list Facade')
    (H1 : batch_result
            (build_fireplaces_from_user_data (IntelliFireUserData.mk fps1) r c)
          = Ok facades1)
    (H2 : batch_result
            (build_fireplaces_from_user_data (IntelliFireUserData.mk fps2) r c)
          = Ok facades2) :
  let both := build_fireplaces_from_user_data
                (IntelliFireUserData.mk (fps1 ++ fps2)) r c in
  batch_result both = Ok (facades1 ++ facades2) /\
  task_traces both =
    task_traces (build_fireplaces_from_user_data (IntelliFireUserData.mk fps1) r c)
    ++ task_traces (build_fireplaces_from_user_data (IntelliFireUserData.mk fps2) r c).
Proof.
  unfold build_fireplaces_from_user_data in *.
  cbn [batch_result task_traces IntelliFireUserData.fireplaces] in *.
  rewrite !map_app. split; [|reflexivity].
  apply gather_app; assumption.
Qed.

End FacadeFurther.

(** * The further properties on scripted backends *)

Lemma Mock_keeps_snapshots : keeps_snapshots Mock.provider.
Proof.
  repeat split.
  - intros [snap pol [|[e|] rest]] d; cbn; intros H; try discriminate; reflexivity.
  - intros [snap pol [|[e|] rest]]; reflexivity.
  - intros [snap pol [|[e|] rest]]; reflexivity.
Qed.


Lemma mode_setters_keep_mirrored_witness :
  mirrored (final (set_read_mode LOCAL (Mock.facade CLOUD LOCAL [] []))) /\
  mirrored (final (set_control_mode (PollData := string) LOCAL
                     (Mock.facade CLOUD LOCAL [] []))).
Proof.
  apply (mode_setters_keep_mirrored (Mock.facade CLOUD LOCAL [] []) LOCAL).
  split; reflexivity.
Defined.

Lemma set_read_mode_again_is_noop_witness :
  let self' := final (set_read_mode LOCAL (Mock.facade CLOUD CLOUD [] [])) in
  read_mode self' = LOCAL /\
  final (set_read_mode LOCAL self') = self' /\
  backend_calls (trace (set_read_mode LOCAL self')) = [] /\
  result (set_read_mode LOCAL self') = Ok tt.
Proof.
  exact (set_read_mode_again_is_noop (Mock.facade CLOUD CLOUD [] []) LOCAL eq_refl).
Defined.

Lemma set_read_mode_call_discipline_witness :
  exists stop_outcome rest,
    backend_calls
      (trace (set_read_mode LOCAL
                (Mock.facade CLOUD CLOUD [Some (Exception "refused")] []))) =
      Call cloud_api StopBackgroundPolling stop_outcome :: rest /\
    forallb (is_call_on local_api) rest = true /\
    (stop_outcome <> None -> rest = []) /\
    List.length rest <= 2.
Proof.
  refine (set_read_mode_call_discipline
            (Mock.facade CLOUD CLOUD [Some (Exception "refused")] []) LOCAL _).
  discriminate.
Defined.

Lemma set_read_mode_raises_iff_uncaught_witness :
  result (set_read_mode LOCAL
            (Mock.facade CLOUD CLOUD [] [Some (BaseException "cancelled")])) =
  Raise (BaseException "cancelled").
Proof.
  apply (proj2 (set_read_mode_raises_iff_uncaught
                  (Mock.facade CLOUD CLOUD [] [Some (BaseException "cancelled")])
                  LOCAL (BaseException "cancelled"))).
  split; [reflexivity|].
  exists cloud_api, StopBackgroundPolling. cbn. right. left. reflexivity.
Defined.

Lemma set_read_mode_keeps_data_witness :
  data (final (set_read_mode LOCAL
                 (Mock.facade CLOUD CLOUD [None; Some (Exception "timeout")] []))) =
  "cloud-snapshot".
Proof.
  exact (set_read_mode_keeps_data
           (Mock.facade CLOUD CLOUD [None; Some (Exception "timeout")] []) LOCAL
           Mock_keeps_snapshots Mock_keeps_snapshots).
Defined.

Lemma create_async_instance_activation_witness :
  trace (create_async_instance (Mock.fireplace "SN1" LOCAL LOCAL) CLOUD LOCAL) =
  [Call local_api StopBackgroundPolling None;
   Call cloud_api (OverwriteData "local@10.0.0.5") None;
   Call cloud_api StartBackgroundPolling None;
   SetAttr attr_read_mode CLOUD;
   SetAttr attr_fireplace_data_read_mode CLOUD].
Proof.
  exact (create_async_instance_activation
           (Mock.fireplace "SN1" LOCAL LOCAL) CLOUD LOCAL eq_refl).
Defined.

Lemma build_fireplace_direct_accessors_witness :
  let f := final (build_fireplace_direct "10.0.0.5" "abc" "SN1" "CK1" "U1" "W1"
                    CLOUD CLOUD) in
  ip_address f = "10.0.0.5" /\ api_key f = "abc" /\ serial f = "SN1" /\
  auth_cookie f = "CK1" /\ user_id f = "U1" /\ web_client_id f = "W1".
Proof.
  exact (build_fireplace_direct_accessors "10.0.0.5" "abc" "SN1" "CK1" "U1" "W1"
           CLOUD CLOUD _ eq_refl).
Defined.

Lemma build_fireplace_from_common_uses_defaults_witness :
  let f := final (build_fireplace_from_common (Mock.fireplace "SN1" CLOUD CLOUD)) in
  read_mode f = LOCAL /\ control_mode f = LOCAL /\
  _fireplace_data f = Mock.fireplace "SN1" LOCAL CLOUD.
Proof.
  assert (Hok : result (build_fireplace_from_common (Mock.fireplace "SN1" CLOUD CLOUD))
                = Ok (final (build_fireplace_from_common
                               (Mock.fireplace "SN1" CLOUD CLOUD))))
    by reflexivity.
  destruct (build_fireplace_from_common_uses_defaults _ _ Hok)
    as (_ & Hr & Hc & Hfd & _).
  exact (conj Hr (conj Hc Hfd)).
Defined.

Lemma build_fireplaces_from_user_data_app_witness :
  exists f1 f2,
    batch_result
      (build_fireplaces_from_user_data
         (IntelliFireUserData.mk
            ([Mock.fireplace "SN1" LOCAL LOCAL] ++ [Mock.fireplace "SN2" LOCAL LOCAL]))
         LOCAL LOCAL)
    = Ok ([f1] ++ [f2]).
Proof.
  eexists _, _.
  apply (build_fireplaces_from_user_data_app
           [Mock.fireplace "SN1" LOCAL LOCAL] [Mock.fireplace "SN2" LOCAL LOCAL]
           LOCAL LOCAL); reflexivity.
Defined.

Lemma set_read_mode_logs_error_iff_caught_witness :
  existsb is_error_log
    (trace (set_read_mode LOCAL
              (Mock.facade CLOUD CLOUD [None; Some (Exception "timeout")] []))) = true.
Proof.
  apply (proj2 (set_read_mode_logs_error_iff_caught
                  (Mock.facade CLOUD CLOUD [None; Some (Exception "timeout")] [])
                  LOCAL)).
  exists local_api, StartBackgroundPolling, (Exception "timeout").
  split; [|reflexivity]. cbn. right. right. right. left. reflexivity.
Defined.

Lemma mode_setters_commute_witness :
  let self := Mock.facade CLOUD LOCAL [None; Some (Exception "timeout")] [] in
  final (bind (set_control_mode CLOUD) (fun _ => set_read_mode LOCAL) self) =
  final (bind (set_read_mode LOCAL) (fun _ => set_control_mode CLOUD) self).
Proof.
  exact (proj1 (mode_setters_commute
                  (Mock.facade CLOUD LOCAL [None; Some (Exception "timeout")] [])
                  LOCAL CLOUD eq_refl)).
Defined.

